(** * documate, [messy-project/src/utils/data_processor.py]

    A shallow embedding of the three units of the module
    ([process_user_data], [calculate_metrics], [DataAnalyzer]) over a small
    model of the Python object store, and the properties the specification
    states about them.

    Python values that have no identity worth observing (None, bool, int,
    float, str) are plain values; lists, tuples, dicts and class instances
    live in a store and are referred to by location, so that "the same
    object" and "a fresh object" mean something.  Every function is a
    computation in a state-and-exception monad over that store. *)

From Stdlib Require Import ZArith QArith String Ascii.
From stdpp Require Import gmap strings list fin_maps.

Local Open Scope Z_scope.

(** ** Exceptions and results *)

(** The exceptions the module can let escape.  [InvalidRef] is not a Python
    exception: it is the outcome of following a location that holds no
    object, which a Python program cannot do; it keeps the model total. *)
Inductive exn : Type :=
  | AttributeError
  | TypeError
  | KeyError
  | ZeroDivisionError
  | OverflowError
  | InvalidRef.

Inductive result (A : Type) : Type :=
  | Ok (a : A)
  | Raise (e : exn).
Arguments Ok {A} a.
Arguments Raise {A} e.

Definition result_bind {A B} (r : result A) (k : A → result B) : result B :=
  match r with
  | Ok a => k a
  | Raise e => Raise e
  end.

Definition result_map {A B} (f : A → B) (r : result A) : result B :=
  result_bind r (λ a, Ok (f a)).

(** ** What the module takes from the Python runtime

    IEEE-754 doubles and the Unicode case tables are the interpreter's, not
    this repository's: they are an interface here.
    - [float_of_int]: [float(n)], OverflowError when [n] is too large;
    - [float_add]: [x + y] on floats (never raises);
    - [float_truediv]: [x / y] on floats, ZeroDivisionError when [y] is zero;
    - [int_truediv]: [a / b] on ints (correctly rounded), ZeroDivisionError
      when [b] is zero, OverflowError when the quotient is out of range;
    - [float_is_zero]: [not x] on a float;
    - [str_lower]: [str.lower], which maps the empty string to itself. *)
Class PyRuntime : Type := {
  pyfloat : Type;
  float_of_int : Z → result pyfloat;
  float_add : pyfloat → pyfloat → pyfloat;
  float_truediv : pyfloat → pyfloat → result pyfloat;
  int_truediv : Z → Z → result pyfloat;
  float_is_zero : pyfloat → bool;
  str_lower : string → string;
  str_lower_empty : str_lower "" = "";
}.

(** *** A runtime to execute the model with

    Exact rational arithmetic for floats (the "exact arithmetic" of the
    specification, section 4.2) and lower-casing of the ASCII letters. *)

Definition ascii_lower (c : ascii) : ascii :=
  let n := nat_of_ascii c in
  if (Nat.leb 65 n && Nat.leb n 90)%bool then ascii_of_nat (n + 32) else c.

Fixpoint ascii_str_lower (s : string) : string :=
  match s with
  | EmptyString => EmptyString
  | String c s' => String (ascii_lower c) (ascii_str_lower s')
  end.

Definition Q_is_zero (q : Q) : bool := Z.eqb (Qnum q) 0.

Definition Q_truediv (x y : Q) : result Q :=
  if Q_is_zero y then Raise ZeroDivisionError else Ok (Qred (Qdiv x y)).

Definition exact_runtime : PyRuntime := {|
  pyfloat := Q;
  float_of_int := λ z, Ok (inject_Z z);
  float_add := λ x y, Qred (Qplus x y);
  float_truediv := Q_truediv;
  int_truediv := λ a b, Q_truediv (inject_Z a) (inject_Z b);
  float_is_zero := Q_is_zero;
  str_lower := ascii_str_lower;
  str_lower_empty := eq_refl;
|}.

(** ** Values and the object store *)

Definition loc : Type := nat.

Inductive value {R : PyRuntime} : Type :=
  | VNone
  | VBool (b : bool)
  | VInt (z : Z)
  | VFloat (f : pyfloat)
  | VStr (s : string)
  | VRef (l : loc).

(** A dict is keyed by strings, as the records, configurations and results
    of this module are. *)
Inductive obj {R : PyRuntime} : Type :=
  | OList (vs : list value)
  | OTuple (vs : list value)
  | ODict (m : gmap string value)
  | OInstance (cls : string) (attrs : gmap string value).

(** The store: location [l] is index [l]; objects are never freed. *)
Abbreviation heap := (list obj).

(** ** The monad: store passing with exceptions *)

Section Monad.
Context {R : PyRuntime}.

Definition M (A : Type) : Type := heap → result (A * heap).

Definition ret {A} (a : A) : M A := λ h, Ok (a, h).

Definition bind {A B} (m : M A) (k : A → M B) : M B :=
  λ h, match m h with
       | Ok (a, h') => k a h'
       | Raise e => Raise e
       end.

Definition raise {A} (e : exn) : M A := λ _, Raise e.

Definition lift {A} (r : result A) : M A :=
  λ h, match r with
       | Ok a => Ok (a, h)
       | Raise e => Raise e
       end.

End Monad.

Notation "'let*' x ':=' m 'in' k" := (bind m (λ x, k))
  (at level 10, x name, m at level 100, k at level 200).

Section Semantics.
Context {R : PyRuntime}.

(** Following a reference. *)
Definition get_obj (l : loc) : M obj :=
  λ h, match h !! l with
       | Some o => Ok (o, h)
       | None => Raise InvalidRef
       end.

(** Creating an object: it goes to the first unused location. *)
Definition alloc (o : obj) : M value :=
  λ h, Ok (VRef (length h), h ++ [o]).

(** [self.k = v]: only instances carry attributes that can be assigned. *)
Definition set_attr (self : value) (k : string) (v : value) : M unit :=
  match self with
  | VRef l =>
      λ h, match h !! l with
           | Some (OInstance c attrs) =>
               Ok (tt, <[l := OInstance c (<[k := v]> attrs)]> h)
           | Some _ => Raise AttributeError
           | None => Raise InvalidRef
           end
  | _ => raise AttributeError
  end.

(** ** Builtins *)

(** [bool(v)]: None, False, zero, and empty strings and containers are
    false; an instance of a class without [__bool__] or [__len__] (which
    [DataAnalyzer] is) is true. *)
Definition truthy (v : value) : M bool :=
  match v with
  | VNone => ret false
  | VBool b => ret b
  | VInt z => ret (negb (Z.eqb z 0))
  | VFloat f => ret (negb (float_is_zero f))
  | VStr s => ret (negb (Nat.eqb (String.length s) 0))
  | VRef l =>
      let* o := get_obj l in
      match o with
      | OList vs | OTuple vs => ret (negb (Nat.eqb (length vs) 0))
      | ODict m => ret (negb (Nat.eqb (size m) 0))
      | OInstance _ _ => ret true
      end
  end.

(** [len(v)]: defined on strings, lists, tuples and dicts. *)
Definition py_len (v : value) : M Z :=
  match v with
  | VStr s => ret (Z.of_nat (String.length s))
  | VRef l =>
      let* o := get_obj l in
      match o with
      | OList vs | OTuple vs => ret (Z.of_nat (length vs))
      | ODict m => ret (Z.of_nat (size m))
      | OInstance _ _ => raise TypeError
      end
  | _ => raise TypeError
  end.

(** [iter(v)] run to the end: the elements of a list or tuple, the keys of
    a dict, the characters of a string. *)
Definition py_iter (v : value) : M (list value) :=
  match v with
  | VStr s => ret ((λ c, VStr (String c EmptyString)) <$> list_ascii_of_string s)
  | VRef l =>
      let* o := get_obj l in
      match o with
      | OList vs | OTuple vs => ret vs
      | ODict m => ret (VStr <$> (map_to_list m).*1)
      | OInstance _ _ => raise TypeError
      end
  | _ => raise TypeError
  end.

(** Numbers: int and float; a bool is an int. *)
Inductive num : Type :=
  | NInt (z : Z)
  | NFloat (f : pyfloat).

Definition to_num (v : value) : option num :=
  match v with
  | VBool b => Some (NInt (Z.b2z b))
  | VInt z => Some (NInt z)
  | VFloat f => Some (NFloat f)
  | _ => None
  end.

Definition of_num (n : num) : value :=
  match n with
  | NInt z => VInt z
  | NFloat f => VFloat f
  end.

(** [x + y] on numbers: an int meeting a float is converted first. *)
Definition num_add (x y : num) : result num :=
  match x, y with
  | NInt a, NInt b => Ok (NInt (a + b))
  | NInt a, NFloat g => result_map (λ f, NFloat (float_add f g)) (float_of_int a)
  | NFloat f, NInt b => result_map (λ g, NFloat (float_add f g)) (float_of_int b)
  | NFloat f, NFloat g => Ok (NFloat (float_add f g))
  end.

(** [x / y] on numbers. *)
Definition num_truediv (x y : num) : result num :=
  match x, y with
  | NInt a, NInt b => result_map NFloat (int_truediv a b)
  | NInt a, NFloat g =>
      result_bind (float_of_int a) (λ f, result_map NFloat (float_truediv f g))
  | NFloat f, NInt b =>
      result_bind (float_of_int b) (λ g, result_map NFloat (float_truediv f g))
  | NFloat f, NFloat g => result_map NFloat (float_truediv f g)
  end.

(** [a / b] on values of this model: anything that is not a number has no
    true division. *)
Definition py_truediv (a b : value) : result value :=
  match to_num a, to_num b with
  | Some x, Some y => result_map of_num (num_truediv x y)
  | _, _ => Raise TypeError
  end.

(** The loop of [sum]: the accumulator is a number from the start (0), so
    an element that is not a number cannot be added to it. *)
Fixpoint sum_from (acc : num) (xs : list value) : result num :=
  match xs with
  | [] => Ok acc
  | x :: xs' =>
      match to_num x with
      | Some n => result_bind (num_add acc n) (λ acc', sum_from acc' xs')
      | None => Raise TypeError
      end
  end.

(** [sum(xs)] over the elements [xs], start value 0. *)
Definition sum_values (xs : list value) : result value :=
  result_map of_num (sum_from (NInt 0) xs).

(** [sum(v)]. *)
Definition py_sum (v : value) : M value :=
  let* xs := py_iter v in
  lift (sum_values xs).

(** [d.get(k, dflt)]: a dict has the method.  The class of this module
    defines no [get], so an instance has one only as an attribute put on
    it; no value of this model can be called, so calling that attribute is
    a TypeError.  Nothing else has a [get]. *)
Definition dict_get (d : value) (k : string) (dflt : value) : M value :=
  match d with
  | VRef l =>
      let* o := get_obj l in
      match o with
      | ODict m => ret (default dflt (m !! k))
      | OInstance _ attrs =>
          match attrs !! "get" with
          | Some _ => raise TypeError
          | None => raise AttributeError
          end
      | OList _ | OTuple _ => raise AttributeError
      end
  | _ => raise AttributeError
  end.

(** [v.lower()]: a str has the method; an instance has a [lower] only as
    an attribute put on it, which cannot be called (TypeError); nothing
    else has one. *)
Definition py_lower (v : value) : M value :=
  match v with
  | VStr s => ret (VStr (str_lower s))
  | VRef l =>
      let* o := get_obj l in
      match o with
      | OInstance _ attrs =>
          match attrs !! "lower" with
          | Some _ => raise TypeError
          | None => raise AttributeError
          end
      | OList _ | OTuple _ | ODict _ => raise AttributeError
      end
  | _ => raise AttributeError
  end.

(** [d[k]]: a missing key is a KeyError; of the values of this model only
    a dict can be indexed by a string. *)
Definition py_getitem (d : value) (k : string) : M value :=
  match d with
  | VRef l =>
      let* o := get_obj l in
      match o with
      | ODict m =>
          match m !! k with
          | Some v => ret v
          | None => raise KeyError
          end
      | _ => raise TypeError
      end
  | _ => raise TypeError
  end.

(** [self.k] for an attribute kept in the instance. *)
Definition py_getattr (self : value) (k : string) : M value :=
  match self with
  | VRef l =>
      let* o := get_obj l in
      match o with
      | OInstance _ attrs =>
          match attrs !! k with
          | Some v => ret v
          | None => raise AttributeError
          end
      | _ => raise AttributeError
      end
  | _ => raise AttributeError
  end.

(** ** The module *)

(** [[
def process_user_data(user_id, data):
    return {
        'id': user_id,
        'normalized': data.get('name', '').lower()
    }
]] *)
Definition process_user_data (user_id data : value) : M value :=
  let* name := dict_get data "name" (VStr "") in
  let* normalized := py_lower name in
  alloc (ODict {[ "id" := user_id; "normalized" := normalized ]}).

(** [[
def calculate_metrics(dataset):
    total = sum(dataset)
    avg = total / len(dataset) if dataset else 0
    return {'total': total, 'average': avg}
]] *)
Definition calculate_metrics (dataset : value) : M value :=
  let* total := py_sum dataset in
  let* nonempty := truthy dataset in
  let* avg :=
    (if nonempty : bool
     then let* n := py_len dataset in lift (py_truediv total (VInt n))
     else ret (VInt 0)) in
  alloc (ODict {[ "total" := total; "average" := avg ]}).

(** [[
class DataAnalyzer:
    def __init__(self, config=None):
        self.config = config or {}
]]
    [x or y] is [x] when [x] is true and otherwise [y], here a new empty
    dict. *)
Definition DataAnalyzer_init (self : value) (config : value) : M unit :=
  let* keep := truthy config in
  let* cfg := (if keep : bool then ret config else alloc (ODict ∅)) in
  set_attr self "config" cfg.

(** [DataAnalyzer(config)] and [DataAnalyzer()]: the instance is created,
    then initialised; the argument left out is None. *)
Definition DataAnalyzer_new (config : option value) : M value :=
  let* self := alloc (OInstance "DataAnalyzer" ∅) in
  let* _ := DataAnalyzer_init self (default VNone config) in
  ret self.

(** [[
    def analyze(self, data):
        return {'analyzed': True, 'data_count': len(data)}
]] *)
Definition analyze (self : value) (data : value) : M value :=
  let* n := py_len data in
  alloc (ODict {[ "analyzed" := VBool true; "data_count" := VInt n ]}).

(** The expression [DataAnalyzer(config).analyze(data)]. *)
Definition analyze_with (config : option value) (data : value) : M value :=
  let* a := DataAnalyzer_new config in
  analyze a data.

(** ** Observing a run *)

(** The value a computation returns from store [h], or what it raises. *)
Definition eval {A} (m : M A) (h : heap) : result A :=
  result_map fst (m h).

(** The contents of the dict a value refers to, if it refers to one. *)
Definition read_dict (h : heap) (v : value) : option (gmap string value) :=
  match v with
  | VRef l =>
      match h !! l with
      | Some (ODict m) => Some m
      | _ => None
      end
  | _ => None
  end.

(** The contents of the dict a computation returns, read in the store it
    leaves: equality of these is Python's [==] on the returned dicts when
    their values are not references. *)
Definition returned_dict (m : M value) (h : heap)
  : result (option (gmap string value)) :=
  match m h with
  | Ok (v, h') => Ok (read_dict h' v)
  | Raise e => Raise e
  end.

(** A value that can be met in store [h]: a reference refers to an object. *)
Definition valid (h : heap) (v : value) : Prop :=
  match v with
  | VRef l => is_Some (h !! l)
  | _ => True
  end.

(** [v] is a sequence (list or tuple) with elements [d]. *)
Definition sequence_at (h : heap) (v : value) (d : list value) : Prop :=
  ∃ l, v = VRef l ∧ (h !! l = Some (OList d) ∨ h !! l = Some (OTuple d)).

(** [v] is a record: a dict with contents [m]. *)
Definition record_at (h : heap) (v : value) (m : gmap string value) : Prop :=
  ∃ l, v = VRef l ∧ h !! l = Some (ODict m).

(** The average as the specification words it: the sum divided by the
    count, and 0 when the count is zero. *)
Definition average_of (total : value) (d : list value) : result value :=
  match d with
  | [] => Ok (VInt 0)
  | _ :: _ => py_truediv total (VInt (Z.of_nat (length d)))
  end.

End Semantics.

Arguments py_getitem : simpl never.
Arguments py_getattr : simpl never.
Arguments process_user_data : simpl never.
Arguments calculate_metrics : simpl never.

(** ** The private helper

[[
    def _internal_helper(self, x):
        return x * 2
]]
    Multiplying two floats is the runtime's, like the rest of the float
    arithmetic; no other unit multiplies, so it is a parameter here. *)

Section Helper.
Context {R : PyRuntime}.
Variable float_mul : pyfloat → pyfloat → pyfloat.

(** [s * n] on a string: [n] copies of [s], none when [n] is not
    positive. *)
Definition str_repeat (n : Z) (s : string) : string :=
  Nat.iter (Z.to_nat n) (String.append s) EmptyString.

(** [xs * n] on the items of a list or tuple. *)
Definition items_repeat (n : Z) (xs : list value) : list value :=
  Nat.iter (Z.to_nat n) (app xs) [].

(** [x * n] for an int [n]: a product for a number (a bool is an int, a
    float makes [n] a float first), a repetition for a string, a list or a
    tuple (a new object for a list; for a tuple too in this model, where
    the identity of a tuple is never looked at); nothing else can be
    multiplied. *)
Definition py_mul_int (x : value) (n : Z) : M value :=
  match x with
  | VNone => raise TypeError
  | VBool b => ret (VInt (Z.b2z b * n))
  | VInt z => ret (VInt (z * n))
  | VFloat f =>
      lift (result_map (λ g, VFloat (float_mul f g)) (float_of_int n))
  | VStr s => ret (VStr (str_repeat n s))
  | VRef l =>
      let* o := get_obj l in
      match o with
      | OList vs => alloc (OList (items_repeat n vs))
      | OTuple vs => alloc (OTuple (items_repeat n vs))
      | ODict _ | OInstance _ _ => raise TypeError
      end
  end.

Definition _internal_helper (self : value) (x : value) : M value :=
  py_mul_int x 2.

End Helper.

(** Float multiplication of [exact_runtime]. *)
Definition Q_mul (x y : Q) : Q := Qred (Qmult x y).

(** ** Stores before and after a call *)

Section Frames.
Context {R : PyRuntime}.

(** Every object of [h] is in [h'], at its location and unchanged. *)
Definition preserved (h h' : heap) : Prop :=
  ∀ l o, h !! l = Some o → h' !! l = Some o.

(** [v] refers to an object that [h] does not hold. *)
Definition created_since (h : heap) (v : value) : Prop :=
  ∃ l, v = VRef l ∧ h !! l = None.

(** What has no [len]: None, bools, numbers and class instances. *)
Definition unsized (h : heap) (v : value) : Prop :=
  match v with
  | VStr _ => False
  | VRef l => ∃ c attrs, h !! l = Some (OInstance c attrs)
  | _ => True
  end.

(** None and dicts: [* 2] accepts neither. *)
Definition no_product (h : heap) (v : value) : Prop :=
  match v with
  | VNone => True
  | VRef l => ∃ m, h !! l = Some (ODict m)
  | _ => False
  end.

(** Bools, ints, floats, strings, lists and tuples: what [* 2] accepts. *)
Definition has_product (h : heap) (v : value) : Prop :=
  match v with
  | VNone => False
  | VRef l =>
      (∃ vs, h !! l = Some (OList vs)) ∨ (∃ vs, h !! l = Some (OTuple vs))
  | _ => True
  end.

(** None, a bool, an int or a float. *)
Definition none_or_number (v : value) : Prop :=
  match v with
  | VNone | VBool _ | VInt _ | VFloat _ => True
  | _ => False
  end.

(** None, a bool, an int, a float, a string, a list or a tuple: what has
    no [get]. *)
Definition without_get (h : heap) (v : value) : Prop :=
  match v with
  | VRef l =>
      (∃ vs, h !! l = Some (OList vs)) ∨ (∃ vs, h !! l = Some (OTuple vs))
  | _ => True
  end.

End Frames.

(** A second store: a tuple, an analyzer, a list with a string in it, two
    lists of the same ints in different orders, and a record with more
    keys than the name. *)
Definition demo_heap2 : list (@obj exact_runtime) :=
  [ OTuple [VInt 1; VBool true];
    OInstance "DataAnalyzer" {[ "config" := VRef 2%nat ]};
    ODict {[ "threshold" := VInt 5 ]};
    OList [VInt 1; VInt 2; VStr "three"; VInt 4];
    OList [VInt 3; VInt 1; VInt 2];
    OList [VInt 1; VInt 2; VInt 3];
    ODict {[ "name" := VStr "Bob"; "age" := VInt 41 ]};
    ODict {[ "name" := VStr "Bob" ]};
    OList [] ].

(** ** A store to run the module on

    Under [exact_runtime]: the records, datasets and configurations of the
    scenarios of the specification, section 8, and a record whose name is
    no string. *)
Definition demo_heap : list (@obj exact_runtime) :=
  [ ODict {[ "name" := VStr "Alice" ]};
    ODict ∅;
    OList [VInt 1; VInt 2; VInt 3; VInt 4];
    OList [];
    OList [VInt 10; VInt 20; VInt 30];
    ODict {[ "threshold" := VInt 5 ]};
    ODict {[ "name" := VInt 5 ]} ].

Section Properties.
Context {R : PyRuntime}.

(** ** The store under allocation *)

Lemma lookup_alloc (h : heap) (o : obj) :
  (h ++ [o]) !! length h = Some o.
Proof. by apply list_lookup_middle. Qed.

Lemma lookup_old (h h2 : heap) (l : loc) (o : obj) :
  h !! l = Some o → (h ++ h2) !! l = Some o.
Proof. intros Hl. by apply lookup_app_l_Some. Qed.

Lemma valid_app (h h2 : heap) (v : value) :
  valid h v → valid (h ++ h2) v.
Proof.
  destruct v as [| | | | |l]; simpl; try done.
  intros [o Ho]. exists o. by apply lookup_old.
Qed.

Lemma truthy_total (h : heap) (v : value) :
  valid h v → ∃ b, truthy v h = Ok (b, h).
Proof.
  destruct v as [| | | | |l]; simpl; try (intros _; eexists; reflexivity).
  intros [o Ho]. unfold bind, get_obj. rewrite Ho.
  destruct o; eexists; reflexivity.
Qed.

Lemma truthy_valid (h : heap) (v : value) (b : bool) :
  eval (truthy v) h = Ok b → valid h v.
Proof.
  destruct v as [| | | | |l]; simpl; try done.
  unfold eval, bind, get_obj. destruct (h !! l); [by eexists | done].
Qed.

Lemma truthy_app (h h2 : heap) (v : value) (b : bool) :
  truthy v h = Ok (b, h) → truthy v (h ++ h2) = Ok (b, h ++ h2).
Proof.
  destruct v as [| | | | |l]; simpl; unfold ret; try congruence.
  unfold bind, get_obj. destruct (h !! l) as [o|] eqn:Ho; [|done].
  rewrite (lookup_old h h2 l o Ho).
  destruct o; unfold ret; congruence.
Qed.

Lemma py_len_app (h h2 : heap) (v : value) :
  valid h v → eval (py_len v) (h ++ h2) = eval (py_len v) h.
Proof.
  destruct v as [| | | | |l]; simpl; try done.
  intros [o Ho]. unfold eval, bind, get_obj.
  rewrite Ho, (lookup_old h h2 l o Ho). by destruct o.
Qed.

Lemma py_len_valid (h : heap) (v : value) (n : Z) :
  eval (py_len v) h = Ok n → valid h v.
Proof.
  destruct v as [| | | | |l]; simpl; try done.
  unfold eval, bind, get_obj. destruct (h !! l); [by eexists | done].
Qed.

(** ** [sum] *)

Lemma sum_from_ints (acc : Z) (zs : list Z) :
  sum_from (NInt acc) (VInt <$> zs) = Ok (NInt (acc + foldr Z.add 0 zs)).
Proof.
  revert acc. induction zs as [|z zs IH]; intros acc; simpl.
  - f_equal. f_equal. lia.
  - rewrite IH. f_equal. f_equal. lia.
Qed.

Lemma sum_values_ints (zs : list Z) :
  sum_values (VInt <$> zs) = Ok (VInt (foldr Z.add 0 zs)).
Proof. unfold sum_values. by rewrite sum_from_ints. Qed.

(** ** What each unit does to the store *)

Lemma py_lower_inv (h h' : heap) (v r : value) :
  py_lower v h = Ok (r, h') →
  ∃ s, v = VStr s ∧ r = VStr (str_lower s) ∧ h' = h.
Proof.
  destruct v as [| | | |s|l]; simpl; unfold raise, ret; try done.
  - intros [= <- <-]. by exists s.
  - unfold bind, get_obj. destruct (h !! l) as [[vs|vs|m|c a]|]; try done.
    by destruct (a !! "lower").
Qed.

Lemma process_user_data_run (h : heap) (i data : value) (m : gmap string value) :
  record_at h data m →
  process_user_data i data h =
    match py_lower (default (VStr "") (m !! "name")) h with
    | Ok (normalized, _) =>
        Ok (VRef (length h),
            h ++ [ODict {[ "id" := i; "normalized" := normalized ]}])
    | Raise e => Raise e
    end.
Proof.
  intros (l & -> & Hl).
  unfold process_user_data, dict_get, bind, get_obj. rewrite Hl. simpl.
  destruct (py_lower (default (VStr "") (m !! "name")) h)
    as [[r h']|e] eqn:E; [|done].
  by destruct (py_lower_inv _ _ _ _ E) as (s & _ & _ & ->).
Qed.

Lemma py_iter_sequence (h : heap) (v : value) (d : list value) :
  sequence_at h v d → py_iter v h = Ok (d, h).
Proof.
  intros (l & -> & [Hl | Hl]); unfold py_iter, bind, get_obj; by rewrite Hl.
Qed.

Lemma truthy_sequence (h : heap) (v : value) (d : list value) :
  sequence_at h v d →
  truthy v h = Ok (match d with [] => false | _ :: _ => true end, h).
Proof.
  intros (l & -> & [Hl | Hl]); unfold truthy, bind, get_obj; rewrite Hl;
    by destruct d.
Qed.

Lemma py_len_sequence (h : heap) (v : value) (d : list value) :
  sequence_at h v d → py_len v h = Ok (Z.of_nat (length d), h).
Proof.
  intros (l & -> & [Hl | Hl]); unfold py_len, bind, get_obj; by rewrite Hl.
Qed.

Lemma calculate_metrics_run (h : heap) (v : value) (d : list value) :
  sequence_at h v d →
  calculate_metrics v h =
    result_bind (sum_values d) (λ t,
    result_bind (average_of t d) (λ a,
      Ok (VRef (length h), h ++ [ODict {[ "total" := t; "average" := a ]}]))).
Proof.
  intros Hd. unfold calculate_metrics, py_sum, bind.
  rewrite (py_iter_sequence h v d Hd). unfold lift.
  destruct (sum_values d) as [t|e]; simpl; [|done].
  rewrite (truthy_sequence h v d Hd).
  destruct d as [|x d]; [done|].
  rewrite (py_len_sequence h v (x :: d) Hd). unfold average_of.
  by destruct (py_truediv t (VInt (Z.of_nat (length (x :: d))))).
Qed.

Lemma DataAnalyzer_new_run (h : heap) (config : option value) (b : bool) :
  eval (truthy (default VNone config)) h = Ok b →
  DataAnalyzer_new config h =
    Ok (VRef (length h),
        h ++ OInstance "DataAnalyzer"
               {[ "config" := if b then default VNone config
                              else VRef (S (length h)) ]}
          :: (if b then [] else [ODict ∅])).
Proof.
  intros Hb. pose proof (truthy_valid _ _ _ Hb) as Hv.
  destruct (truthy_total h _ Hv) as [b' Hb'].
  assert (b' = b) as -> by (unfold eval in Hb; rewrite Hb' in Hb; simpl in Hb; congruence).
  unfold DataAnalyzer_new, DataAnalyzer_init, bind, alloc.
  rewrite (truthy_app h _ _ _ Hb').
  destruct b; unfold ret, set_attr; simpl.
  - rewrite lookup_alloc. f_equal. f_equal.
    rewrite insert_app_r_alt, Nat.sub_diag by lia. by rewrite insert_empty.
  - rewrite length_app; simpl. rewrite (lookup_old _ _ _ _ (lookup_alloc h _)).
    rewrite Nat.add_1_r, <- app_assoc.
    rewrite insert_app_r_alt, Nat.sub_diag by lia.
    simpl. by rewrite insert_empty.
Qed.

Lemma analyze_with_run (h : heap) (config : option value) (data : value) :
  valid h (default VNone config) → valid h data →
  returned_dict (analyze_with config data) h =
    result_map (λ n, Some {[ "analyzed" := VBool true; "data_count" := VInt n ]})
               (eval (py_len data) h).
Proof.
  intros Hc Hd. destruct (truthy_total h _ Hc) as [b Hb].
  assert (eval (truthy (default VNone config)) h = Ok b) as Hb'
    by (unfold eval; by rewrite Hb).
  unfold returned_dict, analyze_with, bind at 1.
  rewrite (DataAnalyzer_new_run h config b Hb').
  set (h' := h ++ _). unfold analyze, bind.
  pose proof (py_len_app h
    (OInstance "DataAnalyzer"
       {[ "config" := if b then default VNone config else VRef (S (length h)) ]}
       :: (if b then [] else [ODict ∅])) data Hd) as Hlen.
  fold h' in Hlen. unfold eval, result_map, result_bind in *.
  destruct (py_len data h') as [[n h'']|e] eqn:E1;
    destruct (py_len data h) as [[n0 h0]|e0] eqn:E2; simpl in *; try congruence.
  assert (h'' = h') as ->.
  { clear -E1. destruct data as [| | | | |l]; simpl in E1; unfold raise, ret, bind, get_obj in E1;
      try congruence. destruct (h' !! l) as [[]|]; unfold raise, ret in E1; congruence. }
  unfold alloc, read_dict. rewrite lookup_alloc. congruence.
Qed.

Lemma process_user_data_inv (h h' : heap) (i data out : value) :
  process_user_data i data h = Ok (out, h') →
  ∃ s, out = VRef (length h) ∧
       h' = h ++ [ODict {[ "id" := i; "normalized" := VStr s ]}].
Proof.
  unfold process_user_data, dict_get, bind.
  destruct data as [| | | | |l]; simpl; try done.
  unfold get_obj. destruct (h !! l) as [[vs|vs|m|c a]|]; simpl; try done.
  - destruct (py_lower (default (VStr "") (m !! "name")) h)
      as [[r h1]|e] eqn:E; [|done].
    destruct (py_lower_inv _ _ _ _ E) as (s & _ & -> & ->).
    unfold alloc. intros [= <- <-]. by eexists.
  - by destruct (a !! "get").
Qed.

Lemma getitem_alloc (h : heap) (m : gmap string value) (k : string) (v : value) :
  m !! k = Some v →
  py_getitem (VRef (length h)) k (h ++ [ODict m]) = Ok (v, h ++ [ODict m]).
Proof.
  intros Hk. unfold py_getitem, bind, get_obj. rewrite lookup_alloc. simpl.
  by rewrite Hk.
Qed.

Lemma analyze_with_run_indep
    (h : heap) (c1 c2 : option value) (data : value) :
  valid h (default VNone c1) →
  valid h (default VNone c2) →
  valid h data →
  returned_dict (analyze_with c1 data) h
    = returned_dict (analyze_with c2 data) h.
Proof.
  intros H1 H2 Hd.
  by rewrite (analyze_with_run h c1 data H1 Hd),
             (analyze_with_run h c2 data H2 Hd).
Qed.

Lemma normalized_run
    (h : heap) (i data : value) (m : gmap string value) :
  record_at h data m →
  eval (let* r := process_user_data i data in py_getitem r "normalized") h
    = eval (py_lower (default (VStr "") (m !! "name"))) h.
Proof.
  intros Hr. unfold eval, bind.
  rewrite (process_user_data_run h i data m Hr).
  destruct (py_lower (default (VStr "") (m !! "name")) h)
    as [[r h']|e]; [|done].
  rewrite (getitem_alloc h _ "normalized" r); [done|].
  by rewrite lookup_insert_ne, lookup_singleton_eq.
Qed.

(** ** The properties of the specification *)

(** C1. For a sequence [d] (a list or a tuple), the [average] field of
    [calculate_metrics(d)] is [sum(d)] divided by the length of [d] when
    [d] is not empty and 0 when it is empty, an exception of the sum or
    of the division being the call's.  On the empty sequence the call
    returns, and the average is the int 0, no float.  On a non-empty
    sequence of ints the average is the true division of the sum of the
    ints by their count. *)
Theorem calculate_metrics_average (h : heap) (v : value) (d : list value) :
  sequence_at h v d →
  eval (let* r := calculate_metrics v in py_getitem r "average") h
    = result_bind (sum_values d) (λ t, average_of t d)
  ∧ (d = [] →
     calculate_metrics v h =
       Ok (VRef (length h),
           h ++ [ODict {[ "total" := VInt 0; "average" := VInt 0 ]}]))
  ∧ (∀ zs : list Z, d = VInt <$> zs → d ≠ [] →
     eval (let* r := calculate_metrics v in py_getitem r "average") h
       = result_map VFloat
           (int_truediv (foldr Z.add 0 zs) (Z.of_nat (length zs)))).
Proof.
  intros Hd.
  assert (eval (let* r := calculate_metrics v in py_getitem r "average") h
          = result_bind (sum_values d) (λ t, average_of t d)) as Havg.
  { unfold eval, bind. rewrite (calculate_metrics_run h v d Hd).
    destruct (sum_values d) as [t|e]; simpl; [|done].
    destruct (average_of t d) as [a|e]; simpl; [|done].
    rewrite (getitem_alloc h _ "average" a); [done|].
    by rewrite lookup_insert_ne, lookup_singleton_eq. }
  split; [exact Havg|]. split.
  - intros ->. by rewrite (calculate_metrics_run h v [] Hd).
  - intros zs -> Hne. rewrite Havg, sum_values_ints. simpl.
    destruct zs as [|z zs]; [done|]. simpl.
    unfold py_truediv, result_map, result_bind. simpl.
    rewrite length_fmap.
    by destruct (int_truediv _ _).
Qed.

(** C5. For a sequence [d], the [total] field of [calculate_metrics(d)]
    is [sum(d)] (whenever the average can be computed too, so that the
    call returns); on the empty sequence it is 0; and [sum] of a sequence
    of ints is the sum of the ints. *)
Theorem calculate_metrics_total (h : heap) (v : value) (d : list value) :
  sequence_at h v d →
  eval (let* r := calculate_metrics v in py_getitem r "total") h
    = result_bind (sum_values d)
        (λ t, result_map (λ _, t) (average_of t d))
  ∧ (d = [] →
     eval (let* r := calculate_metrics v in py_getitem r "total") h
       = Ok (VInt 0))
  ∧ (∀ zs : list Z, d = VInt <$> zs →
     sum_values d = Ok (VInt (foldr Z.add 0 zs))).
Proof.
  intros Hd.
  assert (eval (let* r := calculate_metrics v in py_getitem r "total") h
          = result_bind (sum_values d)
              (λ t, result_map (λ _, t) (average_of t d))) as Htot.
  { unfold eval, bind. rewrite (calculate_metrics_run h v d Hd).
    destruct (sum_values d) as [t|e]; simpl; [|done].
    destruct (average_of t d) as [a|e]; simpl; [|done].
    rewrite (getitem_alloc h _ "total" t); [done|].
    by rewrite lookup_insert_eq. }
  split; [exact Htot|]. split.
  - intros ->. by rewrite Htot.
  - intros zs ->. apply sum_values_ints.
Qed.

(** C2, as the code has it. For a record [r], [process_user_data(i, r)]
    returns when [r] has no ["name"] key or maps it to a string, and
    raises AttributeError when [r] maps ["name"] to None, a bool, an int
    or a float. *)
Theorem process_user_data_outcome
    (h : heap) (i data : value) (m : gmap string value) :
  record_at h data m →
  ((m !! "name" = None ∨ ∃ s, m !! "name" = Some (VStr s)) →
   ∃ out h', process_user_data i data h = Ok (out, h'))
  ∧ (∀ v, m !! "name" = Some v → none_or_number v →
     process_user_data i data h = Raise AttributeError).
Proof.
  intros Hr. rewrite (process_user_data_run h i data m Hr). split.
  - intros [Hn | [s Hn]]; rewrite Hn; simpl; by do 2 eexists.
  - intros v Hn Hv. rewrite Hn. simpl. by destruct v.
Qed.

(** C3. For a record [r] and any identifier [i]: when [r] maps ["name"] to
    a string [s], the [normalized] field of [process_user_data(i, r)] is
    [s] in lower case; when [r] has no ["name"] key, it is the empty
    string. *)
Theorem process_user_data_normalized
    (h : heap) (i data : value) (m : gmap string value) :
  record_at h data m →
  (∀ s, m !! "name" = Some (VStr s) →
     eval (let* r := process_user_data i data in py_getitem r "normalized") h
       = Ok (VStr (str_lower s)))
  ∧ (m !! "name" = None →
     eval (let* r := process_user_data i data in py_getitem r "normalized") h
       = Ok (VStr "")).
Proof.
  intros Hr. rewrite (normalized_run h i data m Hr).
  split; [intros s Hn | intros Hn]; rewrite Hn; simpl; [done|].
  by rewrite str_lower_empty.
Qed.

(** C6. The [id] field of [process_user_data(i, r)] is [i] itself:
    reading the field gives what returning [i] after the call gives, for
    every [i] and every [r]; and for a record that has no ["name"] key or
    maps it to a string the call returns, so the field is there and is
    [i]. *)
Theorem process_user_data_id (h : heap) (i data : value) :
  eval (let* r := process_user_data i data in py_getitem r "id") h
    = eval (let* _ := process_user_data i data in ret i) h
  ∧ (∀ m, record_at h data m →
       (m !! "name" = None ∨ ∃ s, m !! "name" = Some (VStr s)) →
       eval (let* r := process_user_data i data in py_getitem r "id") h
         = Ok i).
Proof.
  assert (eval (let* r := process_user_data i data in py_getitem r "id") h
          = eval (let* _ := process_user_data i data in ret i) h) as Hid.
  { unfold eval, bind.
    destruct (process_user_data i data h) as [[out h']|e] eqn:E; [|done].
    destruct (process_user_data_inv _ _ _ _ _ E) as (s & -> & ->).
    rewrite (getitem_alloc h _ "id" i); [done|]. by rewrite lookup_insert_eq. }
  split; [exact Hid|].
  intros m Hr Hn. rewrite Hid. unfold eval, bind.
  rewrite (process_user_data_run h i data m Hr).
  by destruct Hn as [Hn | [s Hn]]; rewrite Hn.
Qed.

(** C9. When [process_user_data(i, r)] returns, its output has no
    ["name"] key, and [process_user_data(i2, -)] applied to that output
    returns a record whose [normalized] field is the empty string. *)
Theorem process_user_data_not_renormalizable
    (h h' : heap) (i i2 data out : value) :
  process_user_data i data h = Ok (out, h') →
  (∃ m, read_dict h' out = Some m ∧ m !! "name" = None)
  ∧ eval (let* r2 := process_user_data i2 out in py_getitem r2 "normalized") h'
      = Ok (VStr "").
Proof.
  intros E. destruct (process_user_data_inv _ _ _ _ _ E) as (s & -> & ->).
  assert (record_at (h ++ [ODict {[ "id" := i; "normalized" := VStr s ]}])
            (VRef (length h)) {[ "id" := i; "normalized" := VStr s ]}) as Hr.
  { exists (length h). split; [done|]. apply lookup_alloc. }
  assert (({[ "id" := i; "normalized" := VStr s ]} : gmap string value)
            !! "name" = None) as Hn.
  { by rewrite lookup_insert_ne, lookup_singleton_ne. }
  split.
  - eexists. split; [|exact Hn]. unfold read_dict. by rewrite lookup_alloc.
  - rewrite (normalized_run _ i2 _ _ Hr), Hn. simpl. by rewrite str_lower_empty.
Qed.

(** C4. For every configuration (given, or left out) and every [c] that
    has a length [n], [DataAnalyzer(config).analyze(c)] returns the dict
    [{'analyzed': True, 'data_count': n}]. *)
Theorem analyze_counts
    (h : heap) (config : option value) (data : value) (n : Z) :
  valid h (default VNone config) →
  eval (py_len data) h = Ok n →
  returned_dict (analyze_with config data) h
    = Ok (Some {[ "analyzed" := VBool true; "data_count" := VInt n ]}).
Proof.
  intros Hc Hn.
  rewrite (analyze_with_run h config data Hc (py_len_valid _ _ _ Hn)).
  by rewrite Hn.
Qed.

(** C8. [analyze] does not depend on the configuration: for any two
    configurations and any input, the two analyzers return equal dicts,
    or raise the same exception. *)
Theorem analyze_ignores_config
    (h : heap) (c1 c2 : option value) (data : value) :
  valid h (default VNone c1) →
  valid h (default VNone c2) →
  valid h data →
  returned_dict (analyze_with c1 data) h
    = returned_dict (analyze_with c2 data) h.
Proof. apply analyze_with_run_indep. Qed.

(** C10. The constructor returns a new instance and leaves every object
    of the caller's store as it was.  When the configuration is false as
    a boolean (as None, 0, the empty string and an empty dict are), the
    instance's [config] is a dict that did not exist before the call, is
    empty, and is not the argument; when the configuration is true, the
    instance's [config] is the argument itself. *)
Theorem DataAnalyzer_config_stored (h : heap) (config : value) (b : bool) :
  eval (truthy config) h = Ok b →
  (config = VNone ∨ config = VInt 0 ∨ config = VStr "" ∨
   read_dict h config = Some ∅ → b = false)
  ∧ ∃ self h' cfg,
      DataAnalyzer_new (Some config) h = Ok (self, h')
      ∧ h !! length h = None ∧ self = VRef (length h)
      ∧ (∀ l o, h !! l = Some o → h' !! l = Some o)
      ∧ eval (py_getattr self "config") h' = Ok cfg
      ∧ if b then cfg = config
        else ∃ l, cfg = VRef l ∧ h !! l = None
                  ∧ h' !! l = Some (ODict ∅) ∧ cfg ≠ config.
Proof.
  intros Hb. split.
  - intros [-> | [-> | [-> | Hd]]]; try (cbv in Hb; congruence).
    destruct config as [| | | | |l]; simpl in Hd; try done.
    unfold eval, truthy, bind, get_obj in Hb.
    destruct (h !! l) as [[vs|vs|m|c a]|]; simpl in *; try done.
    injection Hd as ->. rewrite map_size_empty in Hb. simpl in Hb. congruence.
  - pose proof (DataAnalyzer_new_run h (Some config) b Hb) as Hrun.
    simpl in Hrun. do 3 eexists. split; [exact Hrun|].
    split; [by apply lookup_ge_None_2|]. split; [done|].
    split; [intros l o Hl; by apply lookup_old|].
    split.
    + unfold eval, py_getattr, bind, get_obj.
      rewrite list_lookup_middle by done. simpl.
      rewrite lookup_singleton_eq. reflexivity.
    + destruct b; [done|].
      exists (S (length h)). split; [done|].
      split; [apply lookup_ge_None_2; lia|].
      split.
      * rewrite lookup_app_r by lia.
        by replace (S (length h) - length h)%nat with 1%nat by lia.
      * intros <-. apply truthy_valid in Hb. destruct Hb as [o Ho].
        apply lookup_lt_Some in Ho. lia.
Qed.

(** C7. An analyzer built with no argument and one built with an empty
    dict behave alike: [analyze] returns equal results from both (or
    raises the same exception), and the [config] of each is an empty
    dict. *)
Theorem DataAnalyzer_default_config (h : heap) (l : loc) :
  h !! l = Some (ODict ∅) →
  (∀ c, valid h c →
     returned_dict (analyze_with None c) h
       = returned_dict (analyze_with (Some (VRef l)) c) h)
  ∧ returned_dict (let* a := DataAnalyzer_new None in py_getattr a "config") h
      = Ok (Some ∅)
  ∧ returned_dict
      (let* a := DataAnalyzer_new (Some (VRef l)) in py_getattr a "config") h
      = Ok (Some ∅).
Proof.
  intros Hl.
  assert (∀ config, eval (truthy (default VNone config)) h = Ok false →
    returned_dict (let* a := DataAnalyzer_new config in py_getattr a "config") h
      = Ok (Some ∅)) as Hcfg.
  { intros config Hb. unfold returned_dict, bind.
    rewrite (DataAnalyzer_new_run h config false Hb).
    unfold py_getattr, bind, get_obj.
    rewrite list_lookup_middle by done. simpl.
    rewrite lookup_singleton_eq. unfold ret, read_dict.
    rewrite lookup_app_r by lia.
    by replace (S (length h) - length h)%nat with 1%nat by lia. }
  split; [|split].
  - intros c Hc. apply analyze_with_run_indep; simpl; by eauto.
  - apply Hcfg. reflexivity.
  - apply Hcfg. unfold eval, truthy, bind, get_obj. simpl. rewrite Hl. simpl.
    by rewrite map_size_empty.
Qed.

End Properties.

(** ** The scenarios of the specification, run *)

Example scenario_1 :
  returned_dict (process_user_data (VStr "u1") (VRef 0%nat)) demo_heap
    = Ok (Some {[ "id" := VStr "u1"; "normalized" := VStr "alice" ]}).
Proof. reflexivity. Qed.

Example scenario_2 :
  returned_dict (process_user_data (VStr "u2") (VRef 1%nat)) demo_heap
    = Ok (Some {[ "id" := VStr "u2"; "normalized" := VStr "" ]}).
Proof. reflexivity. Qed.

Example scenario_3 :
  returned_dict (calculate_metrics (VRef 2%nat)) demo_heap
    = Ok (Some {[ "total" := VInt 10; "average" := VFloat (R:=exact_runtime) (5 # 2)%Q ]}).
Proof. reflexivity. Qed.

Example scenario_4 :
  returned_dict (calculate_metrics (VRef 3%nat)) demo_heap
    = Ok (Some {[ "total" := VInt 0; "average" := VInt 0 ]}).
Proof. reflexivity. Qed.

Example scenario_5 :
  returned_dict (analyze_with (Some VNone) (VRef 4%nat)) demo_heap
    = Ok (Some {[ "analyzed" := VBool true; "data_count" := VInt 3 ]}).
Proof. reflexivity. Qed.

Example scenario_6 :
  returned_dict (analyze_with (Some (VRef 5%nat)) (VRef 3%nat)) demo_heap
    = Ok (Some {[ "analyzed" := VBool true; "data_count" := VInt 0 ]}).
Proof. reflexivity. Qed.

(** ** The theorems at work on the store above *)

Lemma calculate_metrics_average_witness :
  sequence_at demo_heap (VRef 2%nat) [VInt 1; VInt 2; VInt 3; VInt 4]
  ∧ eval (let* r := calculate_metrics (VRef 2%nat) in py_getitem r "average")
         demo_heap
      = Ok (VFloat (R:=exact_runtime) (5 # 2)%Q).
Proof.
  assert (sequence_at demo_heap (VRef 2%nat) [VInt 1; VInt 2; VInt 3; VInt 4])
    as Hd by (exists 2%nat; split; [reflexivity | left; reflexivity]).
  split; [exact Hd|].
  destruct (calculate_metrics_average demo_heap _ _ Hd) as (Havg & _ & _).
  rewrite Havg. vm_compute. reflexivity.
Defined.

Lemma calculate_metrics_total_witness :
  sequence_at demo_heap (VRef 2%nat) [VInt 1; VInt 2; VInt 3; VInt 4]
  ∧ eval (let* r := calculate_metrics (VRef 2%nat) in py_getitem r "total")
         demo_heap
      = Ok (VInt 10).
Proof.
  assert (sequence_at demo_heap (VRef 2%nat) [VInt 1; VInt 2; VInt 3; VInt 4])
    as Hd by (exists 2%nat; split; [reflexivity | left; reflexivity]).
  split; [exact Hd|].
  destruct (calculate_metrics_total demo_heap _ _ Hd) as (Htot & _ & _).
  rewrite Htot. vm_compute. reflexivity.
Defined.

(** C2, as the specification states it, fails: on the record
    [{'name': 5}] the call raises AttributeError ([5] has no [lower]). *)
Lemma process_user_data_raises_on_int_name :
  record_at demo_heap (VRef 6%nat) {[ "name" := VInt 5 ]}
  ∧ process_user_data (VStr "u1") (VRef 6%nat) demo_heap
      = Raise AttributeError.
Proof.
  split; [exists 6%nat; split; reflexivity|]. vm_compute. reflexivity.
Qed.

Lemma process_user_data_outcome_witness :
  record_at demo_heap (VRef 0%nat) {[ "name" := VStr "Alice" ]}
  ∧ (∃ out h', process_user_data (VStr "u1") (VRef 0%nat) demo_heap
                 = Ok (out, h'))
  ∧ process_user_data (VStr "u1") (VRef 6%nat) demo_heap
      = Raise AttributeError.
Proof.
  assert (record_at demo_heap (VRef 0%nat) {[ "name" := VStr "Alice" ]})
    as H0 by (exists 0%nat; split; reflexivity).
  assert (record_at demo_heap (VRef 6%nat) {[ "name" := VInt 5 ]})
    as H6 by (exists 6%nat; split; reflexivity).
  split; [exact H0|]. split.
  - apply (process_user_data_outcome demo_heap (VStr "u1") _ _ H0).
    right. exists "Alice"%string. reflexivity.
  - apply (process_user_data_outcome demo_heap (VStr "u1") _ _ H6) with (VInt 5).
    + reflexivity.
    + exact I.
Defined.

Lemma process_user_data_normalized_witness :
  record_at demo_heap (VRef 0%nat) {[ "name" := VStr "Alice" ]}
  ∧ eval (let* r := process_user_data (VStr "u1") (VRef 0%nat)
          in py_getitem r "normalized") demo_heap
      = Ok (VStr "alice").
Proof.
  assert (record_at demo_heap (VRef 0%nat) {[ "name" := VStr "Alice" ]})
    as H0 by (exists 0%nat; split; reflexivity).
  split; [exact H0|].
  destruct (process_user_data_normalized demo_heap (VStr "u1") _ _ H0)
    as [Hname _].
  apply (Hname "Alice"%string). reflexivity.
Defined.

Lemma process_user_data_id_witness :
  record_at demo_heap (VRef 1%nat) ∅
  ∧ eval (let* r := process_user_data (VStr "u2") (VRef 1%nat)
          in py_getitem r "id") demo_heap
      = Ok (VStr "u2").
Proof.
  assert (record_at demo_heap (VRef 1%nat) ∅)
    as H1 by (exists 1%nat; split; reflexivity).
  split; [exact H1|].
  apply (process_user_data_id demo_heap (VStr "u2") (VRef 1%nat)) with ∅.
  - exact H1.
  - left. reflexivity.
Defined.

Lemma process_user_data_not_renormalizable_witness :
  process_user_data (VStr "u1") (VRef 0%nat) demo_heap
    = Ok (VRef 7%nat,
          demo_heap ++
            [ODict {[ "id" := VStr "u1"; "normalized" := VStr "alice" ]}])
  ∧ eval (let* r2 := process_user_data (VStr "again") (VRef 7%nat)
          in py_getitem r2 "normalized")
         (demo_heap ++
            [ODict {[ "id" := VStr "u1"; "normalized" := VStr "alice" ]}])
      = Ok (VStr "").
Proof.
  assert (process_user_data (VStr "u1") (VRef 0%nat) demo_heap
            = Ok (VRef 7%nat,
                  demo_heap ++
                    [ODict {[ "id" := VStr "u1";
                              "normalized" := VStr "alice" ]}]))
    as Hrun by (vm_compute; reflexivity).
  split; [exact Hrun|].
  apply (process_user_data_not_renormalizable
           demo_heap _ (VStr "u1") (VStr "again") (VRef 0%nat) (VRef 7%nat) Hrun).
Defined.

Lemma analyze_counts_witness :
  valid demo_heap (VRef 5%nat)
  ∧ eval (py_len (VRef 4%nat)) demo_heap = Ok 3
  ∧ returned_dict (analyze_with (Some (VRef 5%nat)) (VRef 4%nat)) demo_heap
      = Ok (Some {[ "analyzed" := VBool true; "data_count" := VInt 3 ]}).
Proof.
  assert (valid demo_heap (VRef 5%nat)) as Hc by (eexists; reflexivity).
  assert (eval (py_len (VRef 4%nat)) demo_heap = Ok 3) as Hn by reflexivity.
  split; [exact Hc|]. split; [exact Hn|].
  exact (analyze_counts demo_heap (Some (VRef 5%nat)) (VRef 4%nat) 3 Hc Hn).
Defined.

Lemma analyze_ignores_config_witness :
  valid demo_heap (VRef 5%nat)
  ∧ valid demo_heap (VInt 0)
  ∧ valid demo_heap (VRef 4%nat)
  ∧ returned_dict (analyze_with (Some (VRef 5%nat)) (VRef 4%nat)) demo_heap
      = returned_dict (analyze_with (Some (VInt 0)) (VRef 4%nat)) demo_heap.
Proof.
  assert (valid demo_heap (VRef 5%nat)) as H1 by (eexists; reflexivity).
  assert (valid demo_heap (VRef 4%nat)) as Hd by (eexists; reflexivity).
  split; [exact H1|]. split; [exact I|]. split; [exact Hd|].
  exact (analyze_ignores_config demo_heap (Some (VRef 5%nat)) (Some (VInt 0))
           (VRef 4%nat) H1 I Hd).
Defined.

Lemma DataAnalyzer_config_stored_witness :
  eval (truthy (VRef 1%nat)) demo_heap = Ok false
  ∧ ∃ self h' cfg,
      DataAnalyzer_new (Some (VRef 1%nat)) demo_heap = Ok (self, h')
      ∧ eval (py_getattr self "config") h' = Ok cfg
      ∧ cfg ≠ VRef 1%nat
      ∧ read_dict demo_heap cfg = None
      ∧ read_dict h' cfg = Some ∅.
Proof.
  assert (eval (truthy (VRef 1%nat)) demo_heap = Ok false)
    as Hf by (vm_compute; reflexivity).
  split; [exact Hf|].
  destruct (DataAnalyzer_config_stored demo_heap (VRef 1%nat) false Hf)
    as (_ & self & h' & cfg & Hnew & _ & _ & _ & Hcfg & l & -> & Hold & Hnew_l & Hne).
  exists self, h', (VRef l).
  split; [exact Hnew|]. split; [exact Hcfg|]. split; [exact Hne|].
  split; simpl; [rewrite Hold | rewrite Hnew_l]; reflexivity.
Defined.

Lemma DataAnalyzer_default_config_witness :
  demo_heap !! 1%nat = Some (ODict ∅)
  ∧ returned_dict (analyze_with None (VRef 4%nat)) demo_heap
      = returned_dict (analyze_with (Some (VRef 1%nat)) (VRef 4%nat)) demo_heap
  ∧ returned_dict (let* a := DataAnalyzer_new None in py_getattr a "config")
      demo_heap = Ok (Some ∅).
Proof.
  assert (demo_heap !! 1%nat = Some (ODict ∅)) as Hl by reflexivity.
  split; [exact Hl|].
  destruct (DataAnalyzer_default_config demo_heap 1%nat Hl) as (Hsame & Hnone & _).
  split; [|exact Hnone].
  apply Hsame. eexists. reflexivity.
Defined.

(** * Further properties of the module *)

Section MoreProperties.
Context {R : PyRuntime}.

(** ** The builtins leave the store alone *)

Lemma preserved_app (h h2 : heap) : preserved h (h ++ h2).
Proof. intros l o Hl. by apply lookup_old. Qed.

Lemma created_alloc (h : heap) : created_since h (VRef (length h)).
Proof. exists (length h). split; [done|]. by apply lookup_ge_None_2. Qed.

Lemma py_len_pure (h h' : heap) (v : value) (n : Z) :
  py_len v h = Ok (n, h') → h' = h.
Proof.
  destruct v as [| | | | |l]; simpl; unfold ret, raise, bind, get_obj;
    try congruence.
  destruct (h !! l) as [[]|]; unfold ret, raise; congruence.
Qed.

Lemma truthy_pure (h h' : heap) (v : value) (b : bool) :
  truthy v h = Ok (b, h') → h' = h.
Proof.
  destruct v as [| | | | |l]; simpl; unfold ret, raise, bind, get_obj;
    try congruence.
  destruct (h !! l) as [[]|]; unfold ret, raise; congruence.
Qed.

Lemma py_iter_pure (h h' : heap) (v : value) (xs : list value) :
  py_iter v h = Ok (xs, h') → h' = h.
Proof.
  destruct v as [| | | | |l]; simpl; unfold ret, raise, bind, get_obj;
    try congruence.
  destruct (h !! l) as [[]|]; unfold ret, raise; congruence.
Qed.

Lemma py_len_nonneg (h : heap) (v : value) (n : Z) :
  eval (py_len v) h = Ok n → 0 ≤ n.
Proof.
  unfold eval. destruct v as [| | | | |l]; simpl;
    unfold ret, raise, bind, get_obj; simpl; try congruence.
  - intros [= <-]. lia.
  - destruct (h !! l) as [[]|]; unfold ret, raise; simpl;
      try congruence; intros [= <-]; lia.
Qed.

Lemma analyze_run (h : heap) (self data : value) :
  analyze self data h =
    match eval (py_len data) h with
    | Ok n =>
        Ok (VRef (length h),
            h ++ [ODict {[ "analyzed" := VBool true; "data_count" := VInt n ]}])
    | Raise e => Raise e
    end.
Proof.
  unfold analyze, eval, bind, result_map, result_bind.
  destruct (py_len data h) as [[n h']|e] eqn:E; simpl; [|done].
  by rewrite (py_len_pure _ _ _ _ E).
Qed.

Lemma size_two_fields (k1 k2 : string) (a b : value) :
  k1 ≠ k2 → size ({[ k1 := a; k2 := b ]} : gmap string value) = 2%nat.
Proof.
  intros Hne. rewrite map_size_insert_None.
  - by rewrite map_size_singleton.
  - by rewrite lookup_singleton_ne.
Qed.

(** ** [process_user_data] *)

(** X1. [process_user_data] calls [data.get]: when [data] is None, a bool,
    an int, a float, a string, a list or a tuple, none of which has a
    [get], the call raises AttributeError, whatever the identifier. *)
Theorem process_user_data_not_a_dict (h : heap) (i data : value) :
  without_get h data →
  process_user_data i data h = Raise AttributeError.
Proof.
  intros Hno. unfold process_user_data, dict_get, bind.
  destruct data as [| | | | |l]; simpl; try done.
  unfold get_obj. by destruct Hno as [[vs ->] | [vs ->]].
Qed.

(** X2. When [process_user_data] returns, it has created exactly one
    object, the dict it returns; every object the caller had (the record
    among them) is unchanged; and the keys of the result are exactly
    ["id"] and ["normalized"]. *)
Theorem process_user_data_result_shape (h h' : heap) (i data out : value) :
  process_user_data i data h = Ok (out, h') →
  preserved h h'
  ∧ created_since h out
  ∧ length h' = S (length h)
  ∧ ∃ m, read_dict h' out = Some m
         ∧ dom m = ({[ "id"; "normalized" ]} : gset string).
Proof.
  intros E. destruct (process_user_data_inv _ _ _ _ _ E) as (s & -> & ->).
  split; [apply preserved_app|]. split; [apply created_alloc|].
  split; [rewrite length_app; simpl; lia|].
  eexists. split; [unfold read_dict; by rewrite lookup_alloc|].
  by rewrite dom_insert_L, dom_singleton_L.
Qed.

(** X3. [process_user_data] reads nothing of the record but ["name"]: two
    records that agree on that key (both lack it, or both hold the same
    value) give the same outcome, whatever else they contain. *)
Theorem process_user_data_only_reads_name
    (h : heap) (i d1 d2 : value) (m1 m2 : gmap string value) :
  record_at h d1 m1 →
  record_at h d2 m2 →
  m1 !! "name" = m2 !! "name" →
  process_user_data i d1 h = process_user_data i d2 h.
Proof.
  intros H1 H2 Hn.
  by rewrite (process_user_data_run h i d1 m1 H1),
             (process_user_data_run h i d2 m2 H2), Hn.
Qed.

(** ** [calculate_metrics] *)

Lemma to_num_of_num (n : num) : to_num (of_num n) = Some n.
Proof. by destruct n. Qed.

Lemma sum_from_non_number
    (pre post : list value) (x : value) (acc acc' : num) :
  sum_from acc pre = Ok acc' →
  to_num x = None →
  sum_from acc (pre ++ x :: post) = Raise TypeError.
Proof.
  revert acc. induction pre as [|y pre IH]; intros acc Hpre Hx; simpl in *.
  - by rewrite Hx.
  - destruct (to_num y) as [n|]; [|done].
    destruct (num_add acc n) as [acc1|e]; simpl in *; [|done].
    by apply IH.
Qed.

Lemma foldr_add_permutation (zs1 zs2 : list Z) :
  zs1 ≡ₚ zs2 → foldr Z.add 0 zs1 = foldr Z.add 0 zs2.
Proof. induction 1; simpl; lia. Qed.

Lemma calculate_metrics_inv (h h' : heap) (v out : value) :
  calculate_metrics v h = Ok (out, h') →
  ∃ t a, out = VRef (length h)
         ∧ h' = h ++ [ODict {[ "total" := t; "average" := a ]}]
         ∧ is_Some (to_num t) ∧ is_Some (to_num a).
Proof.
  unfold calculate_metrics, py_sum, bind.
  destruct (py_iter v h) as [[xs h1]|e] eqn:E1; [|done].
  rewrite (py_iter_pure _ _ _ _ E1). unfold lift, sum_values, result_map, result_bind.
  destruct (sum_from (NInt 0) xs) as [n|e]; [|done].
  destruct (truthy v h) as [[b h2]|e] eqn:E2; [|done].
  rewrite (truthy_pure _ _ _ _ E2).
  destruct b.
  - destruct (py_len v h) as [[k h3]|e] eqn:E3; [|done].
    rewrite (py_len_pure _ _ _ _ E3). unfold py_truediv.
    rewrite to_num_of_num. simpl. unfold result_map, result_bind.
    destruct (num_truediv n (NInt k)) as [q|e]; [|done].
    unfold alloc. intros [= <- <-]. exists (of_num n), (of_num q).
    rewrite !to_num_of_num. by repeat split.
  - unfold ret, alloc. intros [= <- <-]. exists (of_num n), (VInt 0).
    rewrite to_num_of_num. by repeat split.
Qed.

Lemma py_iter_dict (h : heap) (l : loc) (m : gmap string value) :
  h !! l = Some (ODict m) →
  py_iter (VRef l) h = Ok (VStr <$> (map_to_list m).*1, h).
Proof. intros Hl. unfold py_iter, bind, get_obj. by rewrite Hl. Qed.

Lemma truthy_dict (h : heap) (l : loc) (m : gmap string value) :
  h !! l = Some (ODict m) →
  truthy (VRef l) h = Ok (negb (Nat.eqb (size m) 0), h).
Proof. intros Hl. unfold truthy, bind, get_obj. by rewrite Hl. Qed.

(** X4. [calculate_metrics] raises TypeError on a sequence that holds
    something that is no number (a string, None, a list, ...), as soon as
    the elements before it can be summed: [sum] cannot add it. *)
Theorem calculate_metrics_non_number
    (h : heap) (v x t : value) (pre post : list value) :
  sequence_at h v (pre ++ x :: post) →
  sum_values pre = Ok t →
  to_num x = None →
  calculate_metrics v h = Raise TypeError.
Proof.
  intros Hd Hpre Hx. rewrite (calculate_metrics_run h v _ Hd).
  unfold sum_values, result_map, result_bind in *.
  destruct (sum_from (NInt 0) pre) as [acc|e] eqn:E; [|done].
  by rewrite (sum_from_non_number pre post x (NInt 0) acc E Hx).
Qed.

(** X5. On ints the order of the elements does not matter: two sequences
    that hold the same ints in different orders give the same total and
    the same average (and the same exception, if the division raises). *)
Theorem calculate_metrics_order_independent
    (h : heap) (v1 v2 : value) (zs1 zs2 : list Z) :
  sequence_at h v1 (VInt <$> zs1) →
  sequence_at h v2 (VInt <$> zs2) →
  zs1 ≡ₚ zs2 →
  calculate_metrics v1 h = calculate_metrics v2 h.
Proof.
  intros H1 H2 Hp.
  rewrite (calculate_metrics_run h v1 _ H1), (calculate_metrics_run h v2 _ H2).
  rewrite !sum_values_ints, (foldr_add_permutation zs1 zs2 Hp). simpl.
  pose proof (Permutation_length Hp) as Hlen.
  destruct zs1 as [|a zs1], zs2 as [|b zs2]; simpl in *; try done.
  rewrite !length_fmap. by injection Hlen as ->.
Qed.

(** X6. Whatever has length 0 (an empty list or tuple, but also an empty
    dict and the empty string) is an empty dataset: the call returns a new
    dict with total 0 and average 0, and divides nothing. *)
Theorem calculate_metrics_empty (h : heap) (v : value) :
  eval (py_len v) h = Ok 0 →
  calculate_metrics v h =
    Ok (VRef (length h),
        h ++ [ODict {[ "total" := VInt 0; "average" := VInt 0 ]}]).
Proof.
  intros Hlen. unfold eval, result_map, result_bind in Hlen.
  destruct v as [| | | |s|l]; try discriminate.
  - destruct s; [reflexivity | discriminate].
  - unfold py_len, bind, get_obj in Hlen.
    destruct (h !! l) as [[vs|vs|m|c a]|] eqn:Hl; simpl in Hlen;
      try discriminate.
    + destruct vs; [|discriminate].
      by rewrite (calculate_metrics_run h (VRef l) []); [|exists l; auto].
    + destruct vs; [|discriminate].
      by rewrite (calculate_metrics_run h (VRef l) []); [|exists l; auto].
    + injection Hlen as Hs.
      assert (size m = 0%nat) as Hs0 by lia.
      apply map_size_empty_inv in Hs0 as ->.
      unfold calculate_metrics, py_sum, bind.
      rewrite (py_iter_dict h l ∅ Hl), map_to_list_empty.
      cbn -[truthy].
      by rewrite (truthy_dict h l ∅ Hl), map_size_empty.
Qed.

(** X7. A dict keyed by strings (as the records of this module are) with
    a key in it, or a string with a character in it, is no dataset: [sum]
    meets a string first and the call raises TypeError. *)
Theorem calculate_metrics_dict_or_str (h : heap) (v : value) :
  (∃ m, record_at h v m ∧ m ≠ ∅) ∨ (∃ s, v = VStr s ∧ s ≠ EmptyString) →
  calculate_metrics v h = Raise TypeError.
Proof.
  unfold calculate_metrics, py_sum, bind.
  intros [(m & (l & -> & Hl) & Hne) | (s & -> & Hne)].
  - rewrite (py_iter_dict h l m Hl).
    destruct (map_to_list m) as [|[k x] kvs] eqn:E.
    + by apply map_to_list_empty_iff in E.
    + reflexivity.
  - by destruct s.
Qed.

(** X8. When [calculate_metrics] returns, it has created exactly one
    object, the dict it returns, and changed none of the caller's (the
    dataset among them); the keys of the result are exactly ["total"] and
    ["average"]. *)
Theorem calculate_metrics_result_shape (h h' : heap) (v out : value) :
  calculate_metrics v h = Ok (out, h') →
  preserved h h'
  ∧ created_since h out
  ∧ length h' = S (length h)
  ∧ ∃ m, read_dict h' out = Some m
         ∧ dom m = ({[ "total"; "average" ]} : gset string).
Proof.
  intros E.
  destruct (calculate_metrics_inv _ _ _ _ E) as (t & a & -> & -> & _ & _).
  split; [apply preserved_app|]. split; [apply created_alloc|].
  split; [rewrite length_app; simpl; lia|].
  eexists. split; [unfold read_dict; by rewrite lookup_alloc|].
  by rewrite dom_insert_L, dom_singleton_L.
Qed.

(** ** [DataAnalyzer] *)

Lemma eval_truthy_app (h h2 : heap) (v : value) (b : bool) :
  eval (truthy v) h = Ok b → eval (truthy v) (h ++ h2) = Ok b.
Proof.
  intros Hb. destruct (truthy_total h v (truthy_valid _ _ _ Hb)) as [b' Hb'].
  assert (b' = b) as ->
    by (unfold eval in Hb; rewrite Hb' in Hb; simpl in Hb; congruence).
  unfold eval. by rewrite (truthy_app h h2 v b Hb').
Qed.

Lemma py_getattr_app (h h2 : heap) (self : value) (k : string) :
  valid h self →
  eval (py_getattr self k) (h ++ h2) = eval (py_getattr self k) h.
Proof.
  destruct self as [| | | | |l]; try done.
  intros [o Ho]. unfold eval, py_getattr, bind, get_obj.
  rewrite Ho, (lookup_old h h2 l o Ho).
  destruct o as [vs|vs|m|c attrs]; try done.
  by destruct (attrs !! k).
Qed.

Lemma getattr_instance
    (h : heap) (l : loc) (c k : string) (attrs : gmap string value) (v : value) :
  h !! l = Some (OInstance c attrs) →
  attrs !! k = Some v →
  eval (py_getattr (VRef l) k) h = Ok v.
Proof.
  intros Hl Hk. unfold eval, py_getattr, bind, get_obj. rewrite Hl. simpl.
  by rewrite Hk.
Qed.

(** X9. Analyzers do not share a default configuration: two analyzers
    built one after the other, each with no configuration or a false one,
    are two objects, and each holds an empty dict of its own. *)
Theorem DataAnalyzer_configs_not_shared (h : heap) (c1 c2 : option value) :
  eval (truthy (default VNone c1)) h = Ok false →
  eval (truthy (default VNone c2)) h = Ok false →
  ∃ a b la lb h',
    (let* a := DataAnalyzer_new c1 in
     let* b := DataAnalyzer_new c2 in
     ret (a, b)) h = Ok ((a, b), h')
    ∧ a ≠ b
    ∧ eval (py_getattr a "config") h' = Ok (VRef la)
    ∧ eval (py_getattr b "config") h' = Ok (VRef lb)
    ∧ la ≠ lb
    ∧ h' !! la = Some (ODict ∅)
    ∧ h' !! lb = Some (ODict ∅).
Proof.
  intros H1 H2.
  pose proof (DataAnalyzer_new_run h c1 false H1) as Hnew1. simpl in Hnew1.
  set (h1 := h ++ [OInstance "DataAnalyzer" {[ "config" := VRef (S (length h)) ]};
                   ODict ∅]) in *.
  pose proof (DataAnalyzer_new_run h1 c2 false (eval_truthy_app h _ _ _ H2))
    as Hnew2. simpl in Hnew2.
  assert (length h1 = S (S (length h))) as Hlen1
    by (unfold h1; rewrite length_app; simpl; lia).
  exists (VRef (length h)), (VRef (length h1)),
         (S (length h)), (S (length h1)).
  eexists. split.
  { unfold bind. rewrite Hnew1, Hnew2. reflexivity. }
  assert (h1 !! length h
          = Some (OInstance "DataAnalyzer" {[ "config" := VRef (S (length h)) ]}))
    as Ha by (unfold h1; by apply list_lookup_middle).
  assert (h1 !! S (length h) = Some (ODict ∅)) as Hla.
  { unfold h1. rewrite lookup_app_r by lia.
    by replace (S (length h) - length h)%nat with 1%nat by lia. }
  split; [intros [= Heq]; lia|].
  split.
  { eapply getattr_instance; [by apply lookup_old|].
    by rewrite lookup_singleton_eq. }
  split.
  { eapply getattr_instance; [by apply list_lookup_middle|].
    by rewrite lookup_singleton_eq. }
  split; [lia|].
  split; [by apply lookup_old|].
  rewrite lookup_app_r by lia.
  by replace (S (length h1) - length h1)%nat with 1%nat by lia.
Qed.

(** ** [analyze] *)

(** X10. [analyze] raises TypeError exactly on what has no [len]: None,
    bools, numbers and class instances; on every string, list, tuple and
    dict it returns. *)
Theorem analyze_type_error_iff (h : heap) (self data : value) :
  valid h data →
  analyze self data h = Raise TypeError ↔ unsized h data.
Proof.
  intros Hv. rewrite analyze_run.
  destruct data as [| | | | |l]; simpl; try (split; [done | reflexivity]).
  - split; [discriminate | done].
  - destruct Hv as [o Ho]. unfold eval, bind, get_obj. rewrite Ho.
    destruct o as [vs|vs|m|c a]; simpl.
    + split; [discriminate | by intros (? & ? & ?)].
    + split; [discriminate | by intros (? & ? & ?)].
    + split; [discriminate | by intros (? & ? & ?)].
    + split; [by eauto | reflexivity].
Qed.

(** X11. When [analyze] returns, it has created exactly one object, the
    dict it returns, and changed none that existed; the count in the
    result is not negative; and the analyzer holds the configuration it
    held before. *)
Theorem analyze_pure (h h' : heap) (self data out : value) :
  valid h self →
  analyze self data h = Ok (out, h') →
  preserved h h'
  ∧ created_since h out
  ∧ length h' = S (length h)
  ∧ (∃ n, 0 ≤ n
          ∧ read_dict h' out
            = Some {[ "analyzed" := VBool true; "data_count" := VInt n ]})
  ∧ eval (py_getattr self "config") h' = eval (py_getattr self "config") h.
Proof.
  intros Hs. rewrite analyze_run.
  destruct (eval (py_len data) h) as [n|e] eqn:E; [|done].
  intros [= <- <-].
  split; [apply preserved_app|]. split; [apply created_alloc|].
  split; [rewrite length_app; simpl; lia|].
  split.
  - exists n. split; [by apply (py_len_nonneg h data)|].
    unfold read_dict. by rewrite lookup_alloc.
  - by apply py_getattr_app.
Qed.

Lemma read_dict_alloc (h : heap) (m : gmap string value) :
  read_dict (h ++ [ODict m]) (VRef (length h)) = Some m.
Proof. unfold read_dict. by rewrite lookup_alloc. Qed.

Lemma read_dict_old (h h2 : heap) (v : value) (m : gmap string value) :
  read_dict h v = Some m → read_dict (h ++ h2) v = Some m.
Proof.
  destruct v as [| | | | |l]; simpl; try done.
  destruct (h !! l) as [o|] eqn:Hl; [|done].
  by rewrite (lookup_old h h2 l o Hl).
Qed.

(** X12. [analyze] can be repeated: a second call on the same data returns
    another dict, equal to the first, and the first is still what it
    was. *)
Theorem analyze_repeatable (h h1 : heap) (self data r1 : value) :
  analyze self data h = Ok (r1, h1) →
  ∃ r2 h2, analyze self data h1 = Ok (r2, h2)
           ∧ r2 ≠ r1
           ∧ read_dict h2 r2 = read_dict h1 r1
           ∧ read_dict h2 r1 = read_dict h1 r1.
Proof.
  rewrite analyze_run.
  destruct (eval (py_len data) h) as [n|e] eqn:E; [|done].
  intros [= <- <-].
  set (m := ({[ "analyzed" := VBool true; "data_count" := VInt n ]}
               : gmap string value)).
  exists (VRef (length (h ++ [ODict m]))), ((h ++ [ODict m]) ++ [ODict m]).
  split.
  { rewrite analyze_run.
    by rewrite (py_len_app h [ODict m] data (py_len_valid _ _ _ E)), E. }
  split; [intros [= Heq]; rewrite length_app in Heq; simpl in Heq; lia|].
  rewrite (read_dict_alloc (h ++ [ODict m]) m).
  rewrite (read_dict_old (h ++ [ODict m]) [ODict m] _ m (read_dict_alloc h m)).
  by rewrite (read_dict_alloc h m).
Qed.

(** X13. The records the other two units return have two fields each:
    [analyze] applied to the result of [process_user_data] or of
    [calculate_metrics] counts 2. *)
Theorem analyze_counts_two_fields (h h' : heap) (self i data out : value) :
  process_user_data i data h = Ok (out, h')
  ∨ calculate_metrics data h = Ok (out, h') →
  returned_dict (analyze self out) h'
    = Ok (Some {[ "analyzed" := VBool true; "data_count" := VInt 2 ]}).
Proof.
  intros Hrun.
  assert (∃ (k1 k2 : string) (a b : value), k1 ≠ k2 ∧ out = VRef (length h)
            ∧ h' = h ++ [ODict {[ k1 := a; k2 := b ]}])
    as (k1 & k2 & a & b & Hne & -> & ->).
  { destruct Hrun as [E | E].
    - destruct (process_user_data_inv _ _ _ _ _ E) as (s & -> & ->).
      by exists "id"%string, "normalized"%string, i, (VStr s).
    - destruct (calculate_metrics_inv _ _ _ _ E) as (t & a & -> & -> & _ & _).
      by exists "total"%string, "average"%string, t, a. }
  unfold returned_dict. rewrite analyze_run.
  unfold eval, py_len, bind, get_obj. rewrite lookup_alloc. simpl.
  rewrite (size_two_fields k1 k2 a b Hne). simpl.
  unfold read_dict. by rewrite lookup_alloc.
Qed.

End MoreProperties.

(** ** [_internal_helper] *)

Section HelperProperties.
Context {R : PyRuntime}.
Variable float_mul : pyfloat → pyfloat → pyfloat.



Lemma items_repeat_twice (xs : list value) : items_repeat 2 xs = xs ++ xs.
Proof.
  change (items_repeat 2 xs) with (xs ++ (xs ++ [])). by rewrite app_nil_r.
Qed.

Lemma internal_helper_list
    (h : heap) (self : value) (l : loc) (d : list value) :
  h !! l = Some (OList d) →
  _internal_helper float_mul self (VRef l) h
    = Ok (VRef (length h), h ++ [OList (d ++ d)]).
Proof.
  intros Hl. unfold _internal_helper, py_mul_int, bind, get_obj.
  rewrite Hl. simpl. unfold alloc. by rewrite items_repeat_twice.
Qed.



(** X15. On a list, [_internal_helper] returns a new list that holds the
    items twice, in order; the argument and every other object are
    unchanged. *)
Theorem internal_helper_repeats_items
    (h : heap) (self : value) (l : loc) (d : list value) :
  h !! l = Some (OList d) →
  ∃ l' h', _internal_helper float_mul self (VRef l) h = Ok (VRef l', h')
           ∧ h !! l' = None
           ∧ h' !! l' = Some (OList (d ++ d))
           ∧ h' !! l = Some (OList d)
           ∧ preserved h h'.
Proof.
  intros Hl. exists (length h), (h ++ [OList (d ++ d)]).
  split; [by apply internal_helper_list|].
  split; [by apply lookup_ge_None_2|].
  split; [apply lookup_alloc|].
  split; [by apply lookup_old | apply preserved_app].
Qed.

(** X16. On an int or a bool, [_internal_helper] returns the int that is
    twice the value, which is what [sum] gives for the value taken
    twice, and creates nothing. *)
Theorem internal_helper_int_is_sum
    (h : heap) (self x : value) (z : Z) :
  to_num x = Some (NInt z) →
  _internal_helper float_mul self x h = Ok (VInt (2 * z), h)
  ∧ sum_values [x; x] = Ok (VInt (2 * z)).
Proof.
  intros Hx. split.
  - destruct x as [|b|k| | |]; try discriminate; injection Hx as <-;
      unfold _internal_helper, py_mul_int, ret; do 3 f_equal; lia.
  - unfold sum_values. simpl. rewrite Hx. simpl. do 2 f_equal. lia.
Qed.

(** X17. [_internal_helper] raises TypeError on None and on a dict; on a
    bool, an int, a float, a string, a list and a tuple it returns (given
    that the runtime can make a float of the int 2). *)
Theorem internal_helper_type_error
    (h : heap) (self x : value) (two : pyfloat) :
  float_of_int 2 = Ok two →
  (no_product h x → _internal_helper float_mul self x h = Raise TypeError)
  ∧ (has_product h x →
     ∃ r h', _internal_helper float_mul self x h = Ok (r, h')).
Proof.
  intros Htwo. unfold _internal_helper, py_mul_int.
  destruct x as [| | |f| |l]; simpl;
    try (split; [done | intros _; by do 2 eexists]).
  - split; [done | intros []].
  - split; [done | intros _]. unfold lift, result_map, result_bind.
    rewrite Htwo. by do 2 eexists.
  - unfold bind, get_obj. split.
    + by intros [m ->].
    + intros [[vs ->] | [vs ->]]; by do 2 eexists.
Qed.

End HelperProperties.

(** ** The further properties at work on the second store *)

Lemma process_user_data_not_a_dict_witness :
  without_get demo_heap2 (VRef 3%nat)
  ∧ process_user_data (VStr "u1") (VRef 3%nat) demo_heap2
      = Raise AttributeError.
Proof.
  assert (without_get demo_heap2 (VRef 3%nat)) as Hno
    by (left; eexists; reflexivity).
  split; [exact Hno|].
  exact (process_user_data_not_a_dict demo_heap2 (VStr "u1") (VRef 3%nat) Hno).
Defined.

Lemma process_user_data_result_shape_witness :
  process_user_data (VStr "u1") (VRef 7%nat) demo_heap2
    = Ok (VRef 9%nat,
          demo_heap2 ++
            [ODict {[ "id" := VStr "u1"; "normalized" := VStr "bob" ]}])
  ∧ preserved demo_heap2
      (demo_heap2 ++
         [ODict {[ "id" := VStr "u1"; "normalized" := VStr "bob" ]}])
  ∧ created_since demo_heap2 (VRef 9%nat).
Proof.
  assert (process_user_data (VStr "u1") (VRef 7%nat) demo_heap2
            = Ok (VRef 9%nat,
                  demo_heap2 ++
                    [ODict {[ "id" := VStr "u1";
                              "normalized" := VStr "bob" ]}]))
    as Hrun by reflexivity.
  split; [exact Hrun|].
  destruct (process_user_data_result_shape _ _ _ _ _ Hrun) as (Hp & Hc & _).
  split; [exact Hp | exact Hc].
Defined.

Lemma process_user_data_only_reads_name_witness :
  record_at demo_heap2 (VRef 6%nat)
    {[ "name" := VStr "Bob"; "age" := VInt 41 ]}
  ∧ record_at demo_heap2 (VRef 7%nat) {[ "name" := VStr "Bob" ]}
  ∧ process_user_data (VStr "u1") (VRef 6%nat) demo_heap2
      = process_user_data (VStr "u1") (VRef 7%nat) demo_heap2.
Proof.
  assert (record_at demo_heap2 (VRef 6%nat)
            {[ "name" := VStr "Bob"; "age" := VInt 41 ]})
    as H6 by (exists 6%nat; split; reflexivity).
  assert (record_at demo_heap2 (VRef 7%nat) {[ "name" := VStr "Bob" ]})
    as H7 by (exists 7%nat; split; reflexivity).
  split; [exact H6|]. split; [exact H7|].
  apply (process_user_data_only_reads_name demo_heap2 (VStr "u1") _ _ _ _ H6 H7).
  reflexivity.
Defined.

Lemma calculate_metrics_non_number_witness :
  sequence_at demo_heap2 (VRef 3%nat)
    ([VInt 1; VInt 2] ++ VStr "three" :: [VInt 4])
  ∧ sum_values [VInt (R:=exact_runtime) 1; VInt 2] = Ok (VInt 3)
  ∧ to_num (VStr (R:=exact_runtime) "three") = None
  ∧ calculate_metrics (VRef 3%nat) demo_heap2 = Raise TypeError.
Proof.
  assert (sequence_at demo_heap2 (VRef 3%nat)
            ([VInt 1; VInt 2] ++ VStr "three" :: [VInt 4]))
    as Hd by (exists 3%nat; split; [reflexivity | left; reflexivity]).
  split; [exact Hd|]. split; [reflexivity|]. split; [reflexivity|].
  exact (calculate_metrics_non_number demo_heap2 (VRef 3%nat) (VStr "three")
           (VInt 3) [VInt 1; VInt 2] [VInt 4] Hd eq_refl eq_refl).
Defined.

Lemma calculate_metrics_order_independent_witness :
  sequence_at demo_heap2 (VRef 4%nat) (VInt <$> [3; 1; 2])
  ∧ sequence_at demo_heap2 (VRef 5%nat) (VInt <$> [1; 2; 3])
  ∧ [3; 1; 2] ≡ₚ [1; 2; 3]
  ∧ calculate_metrics (VRef 4%nat) demo_heap2
      = calculate_metrics (VRef 5%nat) demo_heap2.
Proof.
  assert (sequence_at demo_heap2 (VRef 4%nat) (VInt <$> [3; 1; 2]))
    as H4 by (exists 4%nat; split; [reflexivity | left; reflexivity]).
  assert (sequence_at demo_heap2 (VRef 5%nat) (VInt <$> [1; 2; 3]))
    as H5 by (exists 5%nat; split; [reflexivity | left; reflexivity]).
  assert ([3; 1; 2] ≡ₚ [1; 2; 3]) as Hp
    by exact (Permutation_cons_append [1; 2] 3).
  split; [exact H4|]. split; [exact H5|]. split; [exact Hp|].
  exact (calculate_metrics_order_independent demo_heap2 _ _ _ _ H4 H5 Hp).
Defined.

Lemma calculate_metrics_empty_witness :
  eval (py_len (VStr "")) demo_heap2 = Ok 0
  ∧ calculate_metrics (VStr "") demo_heap2
      = Ok (VRef 9%nat,
            demo_heap2 ++
              [ODict {[ "total" := VInt 0; "average" := VInt 0 ]}]).
Proof.
  split; [reflexivity|].
  exact (calculate_metrics_empty demo_heap2 (VStr "") eq_refl).
Defined.

Lemma calculate_metrics_dict_or_str_witness :
  record_at demo_heap2 (VRef 7%nat) {[ "name" := VStr "Bob" ]}
  ∧ calculate_metrics (VRef 7%nat) demo_heap2 = Raise TypeError.
Proof.
  assert (record_at demo_heap2 (VRef 7%nat) {[ "name" := VStr "Bob" ]})
    as H7 by (exists 7%nat; split; reflexivity).
  split; [exact H7|].
  apply (calculate_metrics_dict_or_str demo_heap2 (VRef 7%nat)).
  left. exists {[ "name" := VStr "Bob" ]}. split; [exact H7|].
  apply map_non_empty_singleton.
Defined.

Lemma calculate_metrics_result_shape_witness :
  calculate_metrics (VRef 4%nat) demo_heap2
    = Ok (VRef 9%nat,
          demo_heap2 ++
            [ODict {[ "total" := VInt 6;
                      "average" := VFloat (R:=exact_runtime) (2 # 1)%Q ]}])
  ∧ created_since demo_heap2 (VRef 9%nat).
Proof.
  assert (calculate_metrics (VRef 4%nat) demo_heap2
            = Ok (VRef 9%nat,
                  demo_heap2 ++
                    [ODict {[ "total" := VInt 6;
                              "average" :=
                                VFloat (R:=exact_runtime) (2 # 1)%Q ]}]))
    as Hrun by reflexivity.
  split; [exact Hrun|].
  destruct (calculate_metrics_result_shape _ _ _ _ Hrun) as (_ & Hc & _).
  exact Hc.
Defined.

Lemma DataAnalyzer_configs_not_shared_witness :
  eval (truthy (default VNone None)) demo_heap2 = Ok false
  ∧ eval (truthy (default VNone (Some (VRef 8%nat)))) demo_heap2 = Ok false
  ∧ ∃ a b la lb h',
      (let* a := DataAnalyzer_new None in
       let* b := DataAnalyzer_new (Some (VRef 8%nat)) in
       ret (a, b)) demo_heap2 = Ok ((a, b), h')
      ∧ a ≠ b
      ∧ eval (py_getattr a "config") h' = Ok (VRef la)
      ∧ eval (py_getattr b "config") h' = Ok (VRef lb)
      ∧ la ≠ lb
      ∧ h' !! la = Some (ODict ∅)
      ∧ h' !! lb = Some (ODict ∅).
Proof.
  split; [reflexivity|]. split; [reflexivity|].
  exact (DataAnalyzer_configs_not_shared demo_heap2 None (Some (VRef 8%nat))
           eq_refl eq_refl).
Defined.

Lemma analyze_type_error_iff_witness :
  valid demo_heap2 (VRef 1%nat)
  ∧ analyze (VRef 1%nat) (VRef 1%nat) demo_heap2 = Raise TypeError.
Proof.
  assert (valid demo_heap2 (VRef 1%nat)) as Hv by (eexists; reflexivity).
  split; [exact Hv|].
  apply (proj2 (analyze_type_error_iff demo_heap2 (VRef 1%nat) (VRef 1%nat) Hv)).
  do 2 eexists. reflexivity.
Defined.

Lemma analyze_pure_witness :
  valid demo_heap2 (VRef 1%nat)
  ∧ analyze (VRef 1%nat) (VRef 3%nat) demo_heap2
      = Ok (VRef 9%nat,
            demo_heap2 ++
              [ODict {[ "analyzed" := VBool true; "data_count" := VInt 4 ]}])
  ∧ eval (py_getattr (VRef 1%nat) "config")
      (demo_heap2 ++
         [ODict {[ "analyzed" := VBool true; "data_count" := VInt 4 ]}])
    = eval (py_getattr (VRef 1%nat) "config") demo_heap2.
Proof.
  assert (valid demo_heap2 (VRef 1%nat)) as Hv by (eexists; reflexivity).
  assert (analyze (VRef 1%nat) (VRef 3%nat) demo_heap2
            = Ok (VRef 9%nat,
                  demo_heap2 ++
                    [ODict {[ "analyzed" := VBool true;
                              "data_count" := VInt 4 ]}]))
    as Hrun by reflexivity.
  split; [exact Hv|]. split; [exact Hrun|].
  destruct (analyze_pure _ _ _ _ _ Hv Hrun) as (_ & _ & _ & _ & Hcfg).
  exact Hcfg.
Defined.

Lemma analyze_repeatable_witness :
  analyze (VRef 1%nat) (VRef 3%nat) demo_heap2
    = Ok (VRef 9%nat,
          demo_heap2 ++
            [ODict {[ "analyzed" := VBool true; "data_count" := VInt 4 ]}])
  ∧ ∃ r2 h2,
      analyze (VRef 1%nat) (VRef 3%nat)
        (demo_heap2 ++
           [ODict {[ "analyzed" := VBool true; "data_count" := VInt 4 ]}])
        = Ok (r2, h2)
      ∧ r2 ≠ VRef 9%nat.
Proof.
  assert (analyze (VRef 1%nat) (VRef 3%nat) demo_heap2
            = Ok (VRef 9%nat,
                  demo_heap2 ++
                    [ODict {[ "analyzed" := VBool true;
                              "data_count" := VInt 4 ]}]))
    as Hrun by reflexivity.
  split; [exact Hrun|].
  destruct (analyze_repeatable _ _ _ _ _ Hrun) as (r2 & h2 & H2 & Hne & _).
  exists r2, h2. split; [exact H2 | exact Hne].
Defined.

Lemma analyze_counts_two_fields_witness :
  process_user_data (VStr "u1") (VRef 7%nat) demo_heap2
    = Ok (VRef 9%nat,
          demo_heap2 ++
            [ODict {[ "id" := VStr "u1"; "normalized" := VStr "bob" ]}])
  ∧ returned_dict (analyze (VRef 1%nat) (VRef 9%nat))
      (demo_heap2 ++
         [ODict {[ "id" := VStr "u1"; "normalized" := VStr "bob" ]}])
    = Ok (Some {[ "analyzed" := VBool true; "data_count" := VInt 2 ]}).
Proof.
  assert (process_user_data (VStr "u1") (VRef 7%nat) demo_heap2
            = Ok (VRef 9%nat,
                  demo_heap2 ++
                    [ODict {[ "id" := VStr "u1";
                              "normalized" := VStr "bob" ]}]))
    as Hrun by reflexivity.
  split; [exact Hrun|].
  exact (analyze_counts_two_fields demo_heap2 _ (VRef 1%nat) (VStr "u1")
           (VRef 7%nat) (VRef 9%nat) (or_introl Hrun)).
Defined.


Lemma internal_helper_repeats_items_witness :
  demo_heap2 !! 4%nat = Some (OList [VInt 3; VInt 1; VInt 2])
  ∧ ∃ l' h',
      _internal_helper (R:=exact_runtime) Q_mul (VRef 1%nat) (VRef 4%nat)
        demo_heap2 = Ok (VRef l', h')
      ∧ h' !! l'
        = Some (OList [VInt 3; VInt 1; VInt 2; VInt 3; VInt 1; VInt 2])
      ∧ h' !! 4%nat = Some (OList [VInt 3; VInt 1; VInt 2]).
Proof.
  assert (demo_heap2 !! 4%nat = Some (OList [VInt 3; VInt 1; VInt 2]))
    as Hl by reflexivity.
  split; [exact Hl|].
  destruct (internal_helper_repeats_items (R:=exact_runtime) Q_mul demo_heap2
              (VRef 1%nat) 4%nat _ Hl)
    as (l' & h' & Hrun & _ & Hnew & Hold & _).
  exists l', h'. split; [exact Hrun|]. split; [exact Hnew | exact Hold].
Defined.

Lemma internal_helper_int_is_sum_witness :
  to_num (VBool (R:=exact_runtime) true) = Some (NInt 1)
  ∧ _internal_helper (R:=exact_runtime) Q_mul (VRef 1%nat) (VBool true) demo_heap2
      = Ok (VInt 2, demo_heap2)
  ∧ sum_values [VBool (R:=exact_runtime) true; VBool true] = Ok (VInt 2).
Proof.
  split; [reflexivity|].
  exact (internal_helper_int_is_sum (R:=exact_runtime) Q_mul demo_heap2 (VRef 1%nat)
           (VBool true) 1 eq_refl).
Defined.

Lemma internal_helper_type_error_witness :
  float_of_int (PyRuntime:=exact_runtime) 2 = Ok (inject_Z 2)
  ∧ no_product demo_heap2 (VRef 2%nat)
  ∧ _internal_helper (R:=exact_runtime) Q_mul (VRef 1%nat) (VRef 2%nat)
      demo_heap2 = Raise TypeError
  ∧ ∃ r h',
      _internal_helper (R:=exact_runtime) Q_mul (VRef 1%nat)
        (VFloat (R:=exact_runtime) (1 # 2)%Q) demo_heap2 = Ok (r, h').
Proof.
  assert (no_product demo_heap2 (VRef 2%nat)) as Hno
    by (eexists; reflexivity).
  split; [reflexivity|]. split; [exact Hno|]. split.
  - exact (proj1 (internal_helper_type_error (R:=exact_runtime) Q_mul
                    demo_heap2 (VRef 1%nat) (VRef 2%nat) (inject_Z 2) eq_refl)
             Hno).
  - exact (proj2 (internal_helper_type_error (R:=exact_runtime) Q_mul
                    demo_heap2 (VRef 1%nat)
                    (VFloat (R:=exact_runtime) (1 # 2)%Q) (inject_Z 2) eq_refl)
             I).
Defined.
